(** * IbexVis: the browser front end ([web/ibexvis.js]) and its run engine

    The page holds two text areas (script and configuration), a file
    chooser, two buttons and one plot container.  The click handlers are
    embedded as functions on an explicit page state; JavaScript exceptions
    are an explicit completion, Python exceptions an explicit result. *)

From Stdlib Require Import PrimFloat DecimalNat DecimalString QArith Lqa.
From stdpp Require Import gmap strings list.

Set Warnings "-inexact-float".
Local Open Scope string_scope.

(** ** JavaScript and Python values *)

(** A JavaScript number is an IEEE binary64 value. *)
Abbreviation number := PrimFloat.float.

(** String form of an array index, as in ['x' + (c + 1)]: indices are
    integers far below 2^53, which print in plain decimal. *)
Definition Number_toString (n : nat) : string :=
  NilEmpty.string_of_uint (Nat.to_uint n).

(** A [(start, end)] pair of simulated timestamps. *)
Definition interval : Type := number * number.

(** What a [try] block sees of a Python evaluation. *)
Inductive py_error :=
| RunnerError (text : string)
| KeyError (key : string).

Inductive py_result (A : Type) :=
| Raise (err : py_error)
| Return (a : A).
Arguments Raise {A} err.
Arguments Return {A} a.

#[export] Instance py_ret : MRet py_result := @Return.

#[export] Instance py_bind : MBind py_result := λ A B k m,
  match m with
  | Raise e => Raise e
  | Return a => k a
  end.

(** How a caught error prints in ["<pre>" + err + "</pre>"] (the traceback
    lines of the interpreter are left out). *)
Definition err_toString (e : py_error) : string :=
  match e with
  | RunnerError text => "PythonError: " +:+ text
  | KeyError key => "PythonError: KeyError: '" +:+ key +:+ "'"
  end.

(** How a JavaScript statement list ends. *)
Inductive js_error :=
| TypeError (msg : string).

Inductive completion :=
| Normal
| Throw (e : js_error).

(** ** Plotly objects *)

Module Trace.

Record t := mk {
  x : list number;
  y : option (list number);      (* [datavec[c]]; [None] is undefined *)
  xaxis : string;
  yaxis : string;
  type : string;
  name : option string           (* [propname[c]] *)
}.

End Trace.

Module Shape.

Record line_t := mk_line { width : number }.

Record t := mk {
  type : string;
  xref : string;
  yref : string;
  x0 : number;
  x1 : number;
  y0 : number;
  y1 : number;
  fillcolor : string;
  opacity : number;
  line : line_t
}.

End Shape.

Record grid_t := mk_grid {
  rows : nat;
  columns : nat;
  pattern : string
}.

Record layout_t := mk_layout {
  grid : grid_t;
  shapes : list Shape.t
}.

(** ** The page *)

Record file := mk_file {
  file_name : string;
  file_text : string
}.

(** Content of the element with id [Plot]. *)
Inductive container :=
| InitialPlot                                   (* the figure drawn at load *)
| TextContent (s : string)
| InnerHTML (s : string)
| Plot (data : list Trace.t) (layout : layout_t).

Record page := mk_page {
  scriptpy : string;                   (* value of the script text area *)
  configjson : string;                 (* value of the configuration text area *)
  upload : list file;                  (* files of the file chooser *)
  plotdiv : container;
  FS : gmap string string;             (* the interpreter's file system *)
  readers : list file;                 (* file readers waiting for [load] *)
  console : list string;
  newPlot_calls : nat                  (* calls of [Plotly.newPlot] so far *)
}.

Definition set_scriptpy (v : string) (pg : page) : page :=
  mk_page v (configjson pg) (upload pg) (plotdiv pg) (FS pg) (readers pg)
          (console pg) (newPlot_calls pg).

Definition set_plotdiv (c : container) (pg : page) : page :=
  mk_page (scriptpy pg) (configjson pg) (upload pg) c (FS pg) (readers pg)
          (console pg) (newPlot_calls pg).

Definition set_readers (rs : list file) (pg : page) : page :=
  mk_page (scriptpy pg) (configjson pg) (upload pg) (plotdiv pg) (FS pg) rs
          (console pg) (newPlot_calls pg).

Definition console_log (s : string) (pg : page) : page :=
  mk_page (scriptpy pg) (configjson pg) (upload pg) (plotdiv pg) (FS pg)
          (readers pg) (console pg ++ [s])%list (newPlot_calls pg).

Definition FS_writeFile (path data : string) (pg : page) : page :=
  mk_page (scriptpy pg) (configjson pg) (upload pg) (plotdiv pg)
          (<[path := data]> (FS pg)) (readers pg) (console pg)
          (newPlot_calls pg).

Definition Plotly_newPlot (data : list Trace.t) (layout : layout_t)
    (pg : page) : page :=
  mk_page (scriptpy pg) (configjson pg) (upload pg) (Plot data layout) (FS pg)
          (readers pg) (console pg) (S (newPlot_calls pg)).

(** ** The result of a run, as the Python side holds it *)

Record Run := mk_Run {
  properties : gmap string (list number);   (* name to sampled [data] *)
  counts : list interval;
  records : list interval
}.

(** [d[key]] on a Python dict. *)
Definition getitem (d : gmap string (list number)) (key : string)
    : py_result (list number) :=
  match d !! key with
  | Some v => Return v
  | None => Raise (KeyError key)
  end.

(** [[d[name] for name in names]]. *)
Fixpoint comprehension (d : gmap string (list number)) (names : list string)
    : py_result (list (list number)) :=
  match names with
  | [] => Return []
  | n :: ns =>
      v ← getitem d n;
      vs ← comprehension d ns;
      Return (v :: vs)
  end.

(** ** [web/ibexvis.js] *)

Module Web.

(** Lines 22-24.  The callback ignores the element and indexes [propname]
    and [datavec] by position. *)
Definition formdata (time : list number) (propname : list string)
    (datavec : list (list number)) : list Trace.t :=
  imap (λ c _,
    {| Trace.x := time;
       Trace.y := datavec !! c;
       Trace.xaxis := "x" +:+ Number_toString (c + 1);
       Trace.yaxis := "y" +:+ Number_toString (c + 1);
       Trace.type := "scatter";
       Trace.name := propname !! c |}) propname.

(** Lines 26-41. *)
Definition genshapes (runs : list interval) (colour : string) : list Shape.t :=
  (λ d : interval,
    {| Shape.type := "rect";
       Shape.xref := "x";
       Shape.yref := "paper";
       Shape.x0 := d.1;
       Shape.x1 := d.2;
       Shape.y0 := 0%float;
       Shape.y1 := 1%float;
       Shape.fillcolor := colour;
       Shape.opacity := 0.2%float;
       Shape.line := {| Shape.width := 0%float |} |}) <$> runs.

(** Lines 44-55: the click handler of the upload button.  The read is
    asynchronous: the handler leaves a reader behind, and the text area is
    written by that reader's [load] listener. *)
Definition upload_onclick (pg : page) : page :=
  let filedata := upload pg in
  if negb (Nat.eqb (length filedata) 1) then pg
  else
    match filedata !! 0 with
    | None => pg
    | Some f =>
        let pg := console_log ("File selected:  " +:+ file_name f) pg in
        set_readers (readers pg ++ [f])%list pg
    end.

(** Lines 52-54: the [load] listener of the [i]-th waiting reader; the
    reader's [result] is the text of the file it was given. *)
Definition reader_onload (i : nat) (pg : page) : page :=
  match readers pg !! i with
  | None => pg
  | Some f => set_readers (delete i (readers pg)) (set_scriptpy (file_text f) pg)
  end.

(** The value of the last expression of the Python text, lines 66-72,
    after [toJs]. *)
Record run_tuple := mk_tuple {
  t_time : list number;                (* [0] *)
  t_props : list string;               (* [1], in iteration order *)
  t_data : list (list number);         (* [2] *)
  t_counts : list interval;            (* [3] *)
  t_records : list interval            (* [4] *)
}.

(** Lines 69-71, given what the call of [runner] on lines 66-68 gave.  The
    set [props] is iterated twice, by the list comprehension and by the
    conversion to JavaScript, in one and the same order. *)
Definition python_snippet (out : py_result Run) : py_result run_tuple :=
  run ← out;
  let props : gset string := dom (properties run) ∖ {["time"]} in
  time ← getitem (properties run) "time";
  data ← comprehension (properties run) (elements props);
  mret (mk_tuple time (elements props) data (counts run) (records run)).

(** [let rundata = false], or the array assigned in the [try] block. *)
Inductive rundata_t :=
| JsFalse
| JsArray (t : run_tuple).

(** [rundata[3]] and [rundata[4]]: undefined on [false]. *)
Definition rundata_3 (rundata : rundata_t) : option (list interval) :=
  match rundata with
  | JsFalse => None
  | JsArray t => Some (t_counts t)
  end.

Definition rundata_4 (rundata : rundata_t) : option (list interval) :=
  match rundata with
  | JsFalse => None
  | JsArray t => Some (t_records t)
  end.

(** A call of [genshapes] on an argument that may be undefined:
    [runs.map] throws on undefined. *)
Definition call_genshapes (runs : option (list interval)) (colour : string)
    : js_error + list Shape.t :=
  match runs with
  | None => inl (TypeError "Cannot read properties of undefined (reading 'map')")
  | Some rs => inr (genshapes rs colour)
  end.

(** Lines 58-63. *)
Definition calcVis_setup (pg : page) : page :=
  let pg := FS_writeFile "script.py" (scriptpy pg) pg in
  let pg := FS_writeFile "config.json" (configjson pg) pg in
  set_plotdiv (TextContent EmptyString) pg.

(** Lines 64-75. *)
Definition calcVis_try (out : py_result Run) (pg : page) : rundata_t * page :=
  match python_snippet out with
  | Return t => (JsArray t, pg)
  | Raise err =>
      (JsFalse,
       set_plotdiv (InnerHTML ("<pre>" +:+ err_toString err +:+ "</pre>")) pg)
  end.

(** Lines 77-83. *)
Definition calcVis_render (rundata : rundata_t) (pg : page) : completion * page :=
  match call_genshapes (rundata_3 rundata) "#00d300" with
  | inl e => (Throw e, pg)
  | inr green =>
      match call_genshapes (rundata_4 rundata) "#d30000" with
      | inl e => (Throw e, pg)
      | inr red =>
          let records := (green ++ red)%list in
          match rundata with
          | JsFalse => (Normal, pg)
          | JsArray t =>
              let layout :=
                {| grid := {| rows := length (t_data t); columns := 1;
                              pattern := "independent" |};
                   shapes := records |} in
              let data := formdata (t_time t) (t_props t) (t_data t) in
              (Normal, Plotly_newPlot data layout pg)
          end
      end
  end.

(** Lines 57-84.  [runner] stands for the interpreter evaluating lines
    66-68 on the page as it is at that moment. *)
Definition calcVis (runner : page → py_result Run) (pg : page)
    : completion * page :=
  let pg := calcVis_setup pg in
  let '(rundata, pg) := calcVis_try (runner pg) pg in
  calcVis_render rundata pg.

End Web.

(** ** The earlier revision of the same file *)

Module Legacy.

(** Lines 22-24, the same text as in the later revision. *)
Definition formdata (time : list number) (propname : list string)
    (datavec : list (list number)) : list Trace.t :=
  imap (λ c _,
    {| Trace.x := time;
       Trace.y := datavec !! c;
       Trace.xaxis := "x" +:+ Number_toString (c + 1);
       Trace.yaxis := "y" +:+ Number_toString (c + 1);
       Trace.type := "scatter";
       Trace.name := propname !! c |}) propname.

(** Lines 26-41: one parameter, the fill colour is a constant. *)
Definition genshapes (runs : list interval) : list Shape.t :=
  (λ d : interval,
    {| Shape.type := "rect";
       Shape.xref := "x";
       Shape.yref := "paper";
       Shape.x0 := d.1;
       Shape.x1 := d.2;
       Shape.y0 := 0%float;
       Shape.y1 := 1%float;
       Shape.fillcolor := "#00d300";
       Shape.opacity := 0.2%float;
       Shape.line := {| Shape.width := 0%float |} |}) <$> runs.

(** A call with further arguments: they are dropped. *)
Definition genshapes_apply (runs : list interval) (extra : list string)
    : list Shape.t :=
  genshapes runs.

Record run_tuple := mk_tuple {
  t_time : list number;
  t_props : list string;
  t_data : list (list number);
  t_counts : list interval
}.

(** Lines 54-56. *)
Definition python_snippet (out : py_result Run) : py_result run_tuple :=
  run ← out;
  let props : gset string := dom (properties run) ∖ {["time"]} in
  time ← getitem (properties run) "time";
  data ← comprehension (properties run) (elements props);
  mret (mk_tuple time (elements props) data (counts run)).

Inductive rundata_t :=
| JsFalse
| JsArray (t : run_tuple).

(** Lines 50-60. *)
Definition calcVis_try (out : py_result Run) (pg : page) : rundata_t * page :=
  match python_snippet out with
  | Return t => (JsArray t, pg)
  | Raise err =>
      (JsFalse,
       set_plotdiv (InnerHTML ("<pre>" +:+ err_toString err +:+ "</pre>")) pg)
  end.

(** Lines 61-65: the shapes are built inside the guard. *)
Definition calcVis_render (rundata : rundata_t) (pg : page) : completion * page :=
  match rundata with
  | JsFalse => (Normal, pg)
  | JsArray t =>
      let layout :=
        {| grid := {| rows := length (t_data t); columns := 1;
                      pattern := "independent" |};
           shapes := genshapes (t_counts t) |} in
      let data := formdata (t_time t) (t_props t) (t_data t) in
      (Normal, Plotly_newPlot data layout pg)
  end.

(** Lines 43-66. *)
Definition calcVis (runner : page → py_result Run) (pg : page)
    : completion * page :=
  let pg := Web.calcVis_setup pg in
  let '(rundata, pg) := calcVis_try (runner pg) pg in
  calcVis_render rundata pg.

End Legacy.

(** ** The property model of the run engine

    The engine is the Python package [ibex_vis], which the page installs
    from a wheel and calls through [runner]; its text is not part of the
    two files above. *)

Module PropertyModel.

Local Open Scope Q_scope.

(** Modelled from the spec: the record of one property kept by the Python
    engine (section 3, PropertyModel); [last_rate] is the rate of the most
    recent move, which free-running past a target continues at. *)
Record t := mk {
  name : string;
  value : Q;
  target : option Q;
  rate_up : Q;
  rate_down : Q;
  units : string;
  always_advance : bool;
  last_rate : Q
}.

(** Modelled from the spec: the error conditions of the Python engine
    (section 7). *)
Inductive error :=
| ConfigurationError
| UnknownProperty
| InvalidArgument
| TimeoutExceeded.

(** Modelled from the spec: the invariant of a loaded property of the
    Python engine, [rate_up >= 0 >= rate_down] (section 3). *)
Definition wf (m : t) : Prop := 0 <= rate_up m ∧ rate_down m <= 0.

(** Modelled from the spec: the engine's [set_target] (section 4.1); it
    records the target and leaves the value alone. *)
Definition set_target (tg : Q) (m : t) : t :=
  mk (name m) (value m) (Some tg) (rate_up m) (rate_down m) (units m)
     (always_advance m) (last_rate m).

(** Modelled from the spec: the move of the engine's [advance] along
    [rate] for [dt], the other fields kept. *)
Definition moved (v rate : Q) (m : t) : t :=
  mk (name m) v (target m) (rate_up m) (rate_down m) (units m)
     (always_advance m) rate.

(** Modelled from the spec: the engine's [advance] (section 4.1).  A
    negative duration is an error.  With a target that is not reached the
    value moves by [rate_up * dt] or [rate_down * dt] and is clamped at the
    target; at the target, or without one, it holds unless
    [always_advance]. *)
Definition advance (dt : Q) (m : t) : error + t :=
  if Qlt_le_dec dt 0 then inl InvalidArgument
  else
    match target m with
    | None =>
        if always_advance m
        then inr (moved (value m + rate_up m * dt) (rate_up m) m)
        else inr m
    | Some tg =>
        if Qeq_dec (value m) tg then
          if always_advance m
          then inr (moved (value m + last_rate m * dt) (last_rate m) m)
          else inr m
        else if Qlt_le_dec (value m) tg then
          let v := value m + rate_up m * dt in
          inr (moved (if Qlt_le_dec tg v then tg else v) (rate_up m) m)
        else
          let v := value m + rate_down m * dt in
          inr (moved (if Qlt_le_dec v tg then tg else v) (rate_down m) m)
    end.

(** Modelled from the spec: a sequence of calls of the engine's [advance],
    stopping at the first error. *)
Fixpoint advance_all (dts : list Q) (m : t) : error + t :=
  match dts with
  | [] => inr m
  | dt :: rest =>
      match advance dt m with
      | inl e => inl e
      | inr m' => advance_all rest m'
      end
  end.

End PropertyModel.

(** ** Sample pages and runs *)

Module Sample.

(** The page after loading, with a script typed in and one file chosen. *)
Definition page0 : page :=
  {| scriptpy := "g.cset(T=10)";
     configjson := "{}";
     upload := [ {| file_name := "scan.py"; file_text := "g.begin()" |} ];
     plotdiv := InitialPlot;
     FS := ∅;
     readers := [];
     console := ["Initialising"; "Loaded pyodide and plotly"; "Loaded IbexVis"];
     newPlot_calls := 1 |}.

(** The same page with two files chosen. *)
Definition page2 : page :=
  {| scriptpy := "g.cset(T=10)";
     configjson := "{}";
     upload := [ {| file_name := "scan.py"; file_text := "g.begin()" |};
                 {| file_name := "other.py"; file_text := "g.end()" |} ];
     plotdiv := InitialPlot;
     FS := ∅;
     readers := [];
     console := ["Initialising"; "Loaded pyodide and plotly"; "Loaded IbexVis"];
     newPlot_calls := 1 |}.

(** A run of two properties over three samples. *)
Definition run0 : Run :=
  {| properties :=
       {[ "time" := [0%float; 1%float; 2%float];
          "T" := [10%float; 12%float; 14%float];
          "B" := [0%float; 0%float; 0.5%float] ]};
     counts := [(0%float, 1%float)];
     records := [(1%float, 2%float)] |}.

Definition runner_ok (pg : page) : py_result Run := Return run0.

(** A script that stops with an error. *)
Definition runner_fail (pg : page) : py_result Run :=
  Raise (RunnerError "NameError: name 'oops' is not defined").

(** A run that lacks the [time] entry. *)
Definition run_no_time : Run :=
  {| properties := {[ "T" := [10%float; 12%float] ]};
     counts := [];
     records := [] |}.

Definition runner_no_time (pg : page) : py_result Run := Return run_no_time.

(** A run that has the [time] entry and nothing else. *)
Definition run_time_only : Run :=
  {| properties := {[ "time" := [0%float; 1%float] ]};
     counts := [(0%float, 1%float)];
     records := [] |}.

Definition runner_time_only (pg : page) : py_result Run := Return run_time_only.

(** A page with one reader of an earlier upload still waiting. *)
Definition page_waiting : page :=
  {| scriptpy := "g.cset(T=10)";
     configjson := "{}";
     upload := [ {| file_name := "scan.py"; file_text := "g.begin()" |} ];
     plotdiv := InitialPlot;
     FS := {[ "notes.txt" := "keep" ]};
     readers := [ {| file_name := "old.py"; file_text := "g.end()" |} ];
     console := [];
     newPlot_calls := 1 |}.

(** A property ramping from 0 to 10 at 2 per second. *)
Definition ramp : PropertyModel.t :=
  {| PropertyModel.name := "T";
     PropertyModel.value := 0;
     PropertyModel.target := Some 10%Q;
     PropertyModel.rate_up := 2;
     PropertyModel.rate_down := - (2);
     PropertyModel.units := "K";
     PropertyModel.always_advance := false;
     PropertyModel.last_rate := 0 |}.

End Sample.

(** * Properties *)

(** ** [formdata] *)

Section Formdata.

Variables (time : list number) (datavec : list (list number)).

Lemma formdata_length (propname : list string) :
  length (Web.formdata time propname datavec) = length propname.
Proof. unfold Web.formdata. by rewrite length_imap. Qed.

Lemma formdata_lookup (propname : list string) (i : nat) (p : string) :
  propname !! i = Some p →
  Web.formdata time propname datavec !! i =
    Some {| Trace.x := time;
            Trace.y := datavec !! i;
            Trace.xaxis := "x" +:+ Number_toString (i + 1);
            Trace.yaxis := "y" +:+ Number_toString (i + 1);
            Trace.type := "scatter";
            Trace.name := Some p |}.
Proof.
  intros Hp. unfold Web.formdata.
  by rewrite list_lookup_imap, Hp.
Qed.

(** C2: [formdata time propname datavec] has one trace for each of the [n]
    names of [propname]; the [i]-th trace has [x] the shared time array,
    [y] the element [datavec[i]], type scatter, name [propname[i]] and the
    axes ['x' + (i + 1)] and ['y' + (i + 1)]. *)
Theorem formdata_one_trace_per_property (propname : list string) :
  length (Web.formdata time propname datavec) = length propname ∧
  ∀ i : nat, i < length propname →
    ∃ (tr : Trace.t) (p : string),
      Web.formdata time propname datavec !! i = Some tr ∧
      propname !! i = Some p ∧
      Trace.x tr = time ∧
      Trace.y tr = datavec !! i ∧
      Trace.type tr = "scatter" ∧
      Trace.name tr = Some p ∧
      Trace.xaxis tr = "x" +:+ Number_toString (i + 1) ∧
      Trace.yaxis tr = "y" +:+ Number_toString (i + 1).
Proof.
  split; [apply formdata_length |].
  intros i Hi.
  destruct (lookup_lt_is_Some_2 propname i Hi) as [p Hp].
  eexists _, p. split; [by apply formdata_lookup |].
  by repeat split.
Qed.

End Formdata.

(** The theorem at two properties, the second with no data vector. *)
Lemma formdata_one_trace_per_property_witness :
  let time := [0%float; 1%float] in
  let datavec := [[10%float; 12%float]] in
  ∃ tr, Web.formdata time ["T"; "B"] datavec !! 1 = Some tr ∧
        Trace.y tr = None ∧ Trace.name tr = Some "B" ∧ Trace.xaxis tr = "x2".
Proof.
  intros time datavec.
  destruct (formdata_one_trace_per_property time datavec ["T"; "B"])
    as [_ H].
  destruct (H 1 ltac:(simpl; lia))
    as (tr & p & Htr & Hp & _ & Hy & _ & Hn & Hx & _).
  exists tr. repeat split; try done.
  simpl in Hp. congruence.
Defined.

(** ** [genshapes] *)

Lemma genshapes_length (runs : list interval) (colour : string) :
  length (Web.genshapes runs colour) = length runs.
Proof. unfold Web.genshapes. by rewrite length_fmap. Qed.

Lemma genshapes_lookup (runs : list interval) (colour : string) (i : nat)
    (d : interval) :
  runs !! i = Some d →
  Web.genshapes runs colour !! i =
    Some {| Shape.type := "rect"; Shape.xref := "x"; Shape.yref := "paper";
            Shape.x0 := d.1; Shape.x1 := d.2;
            Shape.y0 := 0%float; Shape.y1 := 1%float;
            Shape.fillcolor := colour; Shape.opacity := 0.2%float;
            Shape.line := {| Shape.width := 0%float |} |}.
Proof.
  intros Hd. unfold Web.genshapes. by rewrite list_lookup_fmap, Hd.
Qed.

Lemma genshapes_fillcolor (runs : list interval) (colour : string) :
  Forall (λ s, Shape.fillcolor s = colour) (Web.genshapes runs colour).
Proof.
  induction runs as [|d runs IH]; csimpl; constructor; [done | apply IH].
Qed.

Lemma genshapes_app (r1 r2 : list interval) (colour : string) :
  Web.genshapes (r1 ++ r2) colour =
  (Web.genshapes r1 colour ++ Web.genshapes r2 colour)%list.
Proof. unfold Web.genshapes. apply fmap_app. Qed.

(** C8: the earlier [genshapes], with its constant fill colour, gives the
    same shapes as the later one called with ['#00d300'], whatever further
    arguments the earlier one is called with. *)
Theorem legacy_genshapes_is_green (runs : list interval) (extra : list string) :
  Legacy.genshapes_apply runs extra = Web.genshapes runs "#00d300".
Proof.
  unfold Legacy.genshapes_apply, Legacy.genshapes, Web.genshapes.
  apply list_eq. intros i. rewrite !list_lookup_fmap.
  by destruct (runs !! i).
Qed.

(** ** The Python text of [calcVis] *)

Lemma comprehension_Return (d : gmap string (list number)) (names : list string)
    (vs : list (list number)) :
  comprehension d names = Return vs →
  Forall2 (λ n v, d !! n = Some v) names vs.
Proof.
  revert vs. induction names as [|n ns IH]; intros vs; simpl.
  - intros [= <-]. constructor.
  - unfold getitem. destruct (d !! n) as [v|] eqn:Hn; simpl; [|done].
    destruct (comprehension d ns) as [e|ws]; simpl; [done|].
    intros [= <-]. constructor; [done | by apply IH].
Qed.

Lemma comprehension_total (d : gmap string (list number)) (names : list string) :
  Forall (λ n, is_Some (d !! n)) names →
  ∃ vs, comprehension d names = Return vs.
Proof.
  induction 1 as [|n ns [v Hv] _ [vs IH]]; simpl; [by eexists|].
  unfold getitem. rewrite Hv. simpl. rewrite IH. simpl. by eexists.
Qed.

Lemma snippet_inv (run : Run) (t : Web.run_tuple) :
  Web.python_snippet (Return run) = Return t →
  properties run !! "time" = Some (Web.t_time t) ∧
  Web.t_props t = elements (dom (properties run) ∖ ({["time"]} : gset string)) ∧
  Forall2 (λ n v, properties run !! n = Some v) (Web.t_props t) (Web.t_data t) ∧
  Web.t_counts t = counts run ∧
  Web.t_records t = records run.
Proof.
  unfold Web.python_snippet. simpl. unfold getitem.
  destruct (properties run !! "time") as [tm|] eqn:Htm; simpl; [|done].
  destruct (comprehension _ _) as [e|vs] eqn:Hc; simpl; [done|].
  intros [= <-]. simpl. repeat split; try done.
  by apply comprehension_Return.
Qed.

Lemma snippet_raise_runner (e : py_error) :
  Web.python_snippet (Raise e) = Raise e.
Proof. reflexivity. Qed.

(** The Python text returns exactly when [runner] returned a run that has
    a [time] entry. *)
Lemma snippet_total (run : Run) (tm : list number) :
  properties run !! "time" = Some tm →
  ∃ t, Web.python_snippet (Return run) = Return t.
Proof.
  intros Htm. unfold Web.python_snippet. simpl. unfold getitem.
  rewrite Htm. simpl.
  destruct (comprehension_total (properties run)
              (elements (dom (properties run) ∖ ({["time"]} : gset string))))
    as [vs Hvs].
  - apply Forall_forall. intros n Hn.
    apply elem_of_elements, elem_of_difference in Hn as [Hn _].
    by apply elem_of_dom in Hn.
  - rewrite Hvs. simpl. by eexists.
Qed.

Lemma snippet_no_time (run : Run) :
  properties run !! "time" = None →
  Web.python_snippet (Return run) = Raise (KeyError "time").
Proof.
  intros Htm. unfold Web.python_snippet. simpl. unfold getitem.
  by rewrite Htm.
Qed.

(** ** [calcVis] *)

Lemma calcVis_setup_plotdiv (pg : page) :
  plotdiv (Web.calcVis_setup pg) = TextContent EmptyString.
Proof. reflexivity. Qed.

Lemma calcVis_Return (runner : page → py_result Run) (pg : page)
    (t : Web.run_tuple) :
  Web.python_snippet (runner (Web.calcVis_setup pg)) = Return t →
  Web.calcVis runner pg =
    (Normal,
     Plotly_newPlot
       (Web.formdata (Web.t_time t) (Web.t_props t) (Web.t_data t))
       {| grid := {| rows := length (Web.t_data t); columns := 1;
                     pattern := "independent" |};
          shapes := (Web.genshapes (Web.t_counts t) "#00d300" ++
                     Web.genshapes (Web.t_records t) "#d30000")%list |}
       (Web.calcVis_setup pg)).
Proof.
  intros Ht. unfold Web.calcVis, Web.calcVis_try. by rewrite Ht.
Qed.

Lemma calcVis_Raise (runner : page → py_result Run) (pg : page)
    (err : py_error) :
  Web.python_snippet (runner (Web.calcVis_setup pg)) = Raise err →
  Web.calcVis runner pg =
    (Throw (TypeError "Cannot read properties of undefined (reading 'map')"),
     set_plotdiv (InnerHTML ("<pre>" +:+ err_toString err +:+ "</pre>"))
       (Web.calcVis_setup pg)).
Proof.
  intros He. unfold Web.calcVis, Web.calcVis_try. by rewrite He.
Qed.

Lemma legacy_calcVis_Raise (runner : page → py_result Run) (pg : page)
    (err : py_error) :
  Legacy.python_snippet (runner (Web.calcVis_setup pg)) = Raise err →
  Legacy.calcVis runner pg =
    (Normal,
     set_plotdiv (InnerHTML ("<pre>" +:+ err_toString err +:+ "</pre>"))
       (Web.calcVis_setup pg)).
Proof.
  intros He. unfold Legacy.calcVis, Legacy.calcVis_try. by rewrite He.
Qed.

Lemma omap_Some_fmap {A B} (f : A → option B) (l : list A) (l' : list B) :
  f <$> l = Some <$> l' → omap f l = l'.
Proof.
  revert l'. induction l as [|a l IH]; intros [|b l']; csimpl; try done.
  intros [= Ha Hl]. rewrite Ha. csimpl. f_equal. by apply IH.
Qed.

Lemma formdata_names (time : list number) (propname : list string)
    (datavec : list (list number)) :
  Trace.name <$> Web.formdata time propname datavec = Some <$> propname.
Proof.
  apply list_eq. intros i. rewrite !list_lookup_fmap.
  destruct (propname !! i) as [p|] eqn:Hp.
  - by rewrite (formdata_lookup _ _ _ _ _ Hp).
  - apply lookup_ge_None in Hp.
    rewrite (proj2 (lookup_ge_None _ _)); [done|].
    by rewrite formdata_length.
Qed.

Lemma formdata_elem (time : list number) (propname : list string)
    (datavec : list (list number)) (tr : Trace.t) :
  tr ∈ Web.formdata time propname datavec →
  ∃ i p, propname !! i = Some p ∧
         Trace.x tr = time ∧ Trace.name tr = Some p ∧
         Trace.y tr = datavec !! i.
Proof.
  intros [i Hi]%list_elem_of_lookup.
  assert (i < length propname) as Hlt.
  { rewrite <- (formdata_length time datavec). by eapply lookup_lt_Some. }
  destruct (lookup_lt_is_Some_2 _ _ Hlt) as [p Hp].
  rewrite (formdata_lookup _ _ _ _ _ Hp) in Hi. injection Hi as <-.
  by exists i, p.
Qed.

(** C3: after a successful run the names of the traces that [calcVis]
    plots are exactly the keys of [run.properties] without [time]; no trace
    is named [time]; every trace has the data of [run.properties['time']]
    as [x] and the data of its own property as [y]. *)
Theorem calcVis_plots_properties_minus_time
    (runner : page → py_result Run) (pg : page) (run : Run)
    (t : Web.run_tuple) :
  runner (Web.calcVis_setup pg) = Return run →
  Web.python_snippet (Return run) = Return t →
  ∃ data layout,
    plotdiv (Web.calcVis runner pg).2 = Plot data layout ∧
    list_to_set (omap Trace.name data) =
      (dom (properties run) ∖ {["time"]} : gset string) ∧
    NoDup (Trace.name <$> data) ∧
    Forall (λ tr,
      Trace.name tr ≠ Some "time" ∧
      properties run !! "time" = Some (Trace.x tr) ∧
      ∃ p v, Trace.name tr = Some p ∧ properties run !! p = Some v ∧
             Trace.y tr = Some v) data.
Proof.
  intros Hrun Ht.
  assert (Web.python_snippet (runner (Web.calcVis_setup pg)) = Return t)
    as Hsn by (by rewrite Hrun).
  rewrite (calcVis_Return _ _ _ Hsn). simpl.
  destruct (snippet_inv _ _ Ht) as (Htime & Hprops & Hdata & _ & _).
  eexists _, _. split; [reflexivity|].
  split; [|split].
  - rewrite (omap_Some_fmap _ _ _ (formdata_names _ _ _)), Hprops.
    apply list_to_set_elements_L.
  - rewrite formdata_names, Hprops.
    apply (NoDup_fmap_2 Some), NoDup_elements.
  - apply Forall_forall. intros tr Htr.
    destruct (formdata_elem _ _ _ _ Htr) as (i & p & Hp & Hx & Hn & Hy).
    assert (p ∈ (dom (properties run) ∖ {["time"]} : gset string)) as Hin.
    { apply elem_of_elements. rewrite <- Hprops.
      by eapply list_elem_of_lookup_2. }
    apply elem_of_difference in Hin as [_ Hnt].
    split; [|split].
    + rewrite Hn. intros [= ->]. apply Hnt. by apply elem_of_singleton.
    + by rewrite Hx.
    + destruct (Forall2_lookup_l _ _ _ _ _ Hdata Hp) as (v & Hv & Hpv).
      exists p, v. by rewrite Hy.
Qed.

(** The theorem at the sample run of two properties. *)
Lemma calcVis_plots_properties_minus_time_witness :
  ∃ t data layout,
    Sample.runner_ok (Web.calcVis_setup Sample.page0) = Return Sample.run0 ∧
    Web.python_snippet (Return Sample.run0) = Return t ∧
    plotdiv (Web.calcVis Sample.runner_ok Sample.page0).2 = Plot data layout ∧
    list_to_set (omap Trace.name data) =
      (dom (properties Sample.run0) ∖ {["time"]} : gset string).
Proof.
  destruct (snippet_total Sample.run0 [0%float; 1%float; 2%float] eq_refl)
    as [t Ht].
  destruct (calcVis_plots_properties_minus_time
              Sample.runner_ok Sample.page0 Sample.run0 t eq_refl Ht)
    as (data & layout & Hplot & Hset & _).
  by exists t, data, layout.
Defined.

(** C5: after a successful run with [n] properties besides [time], the
    layout has a grid of [n] rows and one column with pattern
    [independent], there are [n] traces, and the [i]-th trace is on the
    axes ['x' + (i + 1)] and ['y' + (i + 1)]. *)
Theorem calcVis_grid_one_row_per_property
    (runner : page → py_result Run) (pg : page) (run : Run)
    (t : Web.run_tuple) :
  runner (Web.calcVis_setup pg) = Return run →
  Web.python_snippet (Return run) = Return t →
  let n := size (dom (properties run) ∖ {["time"]} : gset string) in
  ∃ data layout,
    plotdiv (Web.calcVis runner pg).2 = Plot data layout ∧
    grid layout = {| rows := n; columns := 1; pattern := "independent" |} ∧
    length data = n ∧
    ∀ i : nat, i < n →
      ∃ tr, data !! i = Some tr ∧
            Trace.xaxis tr = "x" +:+ Number_toString (i + 1) ∧
            Trace.yaxis tr = "y" +:+ Number_toString (i + 1).
Proof.
  intros Hrun Ht n.
  assert (Web.python_snippet (runner (Web.calcVis_setup pg)) = Return t)
    as Hsn by (by rewrite Hrun).
  rewrite (calcVis_Return _ _ _ Hsn). simpl.
  destruct (snippet_inv _ _ Ht) as (_ & Hprops & Hdata & _ & _).
  assert (length (Web.t_props t) = n) as Hn by (by rewrite Hprops).
  eexists _, _. split; [reflexivity|]. simpl.
  split; [|split].
  - by rewrite <- (Forall2_length _ _ _ Hdata), Hn.
  - by rewrite formdata_length.
  - intros i Hi. rewrite <- Hn in Hi.
    destruct (lookup_lt_is_Some_2 _ _ Hi) as [p Hp].
    eexists. split; [by apply formdata_lookup|]. done.
Qed.

(** The theorem at the sample run: two rows, the second trace on [x2]. *)
Lemma calcVis_grid_one_row_per_property_witness :
  ∃ t data layout tr,
    Sample.runner_ok (Web.calcVis_setup Sample.page0) = Return Sample.run0 ∧
    Web.python_snippet (Return Sample.run0) = Return t ∧
    plotdiv (Web.calcVis Sample.runner_ok Sample.page0).2 = Plot data layout ∧
    grid layout = {| rows := 2; columns := 1; pattern := "independent" |} ∧
    data !! 1 = Some tr ∧ Trace.xaxis tr = "x2" ∧ Trace.yaxis tr = "y2".
Proof.
  destruct (snippet_total Sample.run0 [0%float; 1%float; 2%float] eq_refl)
    as [t Ht].
  destruct (calcVis_grid_one_row_per_property
              Sample.runner_ok Sample.page0 Sample.run0 t eq_refl Ht)
    as (data & layout & Hplot & Hgrid & _ & Hax).
  destruct (Hax 1) as (tr & Htr & Hx & Hy); [vm_compute; lia|].
  by exists t, data, layout, tr.
Defined.

(** C4: [genshapes] gives one rectangle for each pair, from the pair's
    start to its end over the full height of the paper, in the given fill
    colour at opacity 0.2; after a successful run the shapes of the layout
    are those of [counts] in ['#00d300'] followed by those of [records] in
    ['#d30000'], and the two colours differ. *)
Theorem overlays_one_rectangle_per_interval :
  (∀ (runs : list interval) (colour : string),
     length (Web.genshapes runs colour) = length runs ∧
     ∀ (i : nat) (d : interval), runs !! i = Some d →
       Web.genshapes runs colour !! i =
         Some {| Shape.type := "rect"; Shape.xref := "x";
                 Shape.yref := "paper";
                 Shape.x0 := d.1; Shape.x1 := d.2;
                 Shape.y0 := 0%float; Shape.y1 := 1%float;
                 Shape.fillcolor := colour; Shape.opacity := 0.2%float;
                 Shape.line := {| Shape.width := 0%float |} |}) ∧
  (∀ (runner : page → py_result Run) (pg : page) (run : Run)
     (t : Web.run_tuple),
     runner (Web.calcVis_setup pg) = Return run →
     Web.python_snippet (Return run) = Return t →
     ∃ data layout,
       plotdiv (Web.calcVis runner pg).2 = Plot data layout ∧
       shapes layout =
         (Web.genshapes (counts run) "#00d300" ++
          Web.genshapes (records run) "#d30000")%list ∧
       Forall (λ s, Shape.fillcolor s = "#00d300")
              (take (length (counts run)) (shapes layout)) ∧
       Forall (λ s, Shape.fillcolor s = "#d30000")
              (drop (length (counts run)) (shapes layout))) ∧
  "#00d300" ≠ "#d30000".
Proof.
  split; [|split]; [| |done].
  - intros runs colour. split; [apply genshapes_length|].
    intros i d. apply genshapes_lookup.
  - intros runner pg run t Hrun Ht.
    assert (Web.python_snippet (runner (Web.calcVis_setup pg)) = Return t)
      as Hsn by (by rewrite Hrun).
    rewrite (calcVis_Return _ _ _ Hsn). simpl.
    destruct (snippet_inv _ _ Ht) as (_ & _ & _ & -> & ->).
    eexists _, _. split; [reflexivity|]. simpl.
    split; [done|]. split.
    + rewrite take_app_length'; [apply genshapes_fillcolor|].
      symmetry. apply genshapes_length.
    + rewrite drop_app_length'; [apply genshapes_fillcolor|].
      symmetry. apply genshapes_length.
Qed.

(** The theorem at the sample run: one green and one red rectangle. *)
Lemma overlays_one_rectangle_per_interval_witness :
  ∃ t data layout,
    Sample.runner_ok (Web.calcVis_setup Sample.page0) = Return Sample.run0 ∧
    Web.python_snippet (Return Sample.run0) = Return t ∧
    plotdiv (Web.calcVis Sample.runner_ok Sample.page0).2 = Plot data layout ∧
    Shape.fillcolor <$> shapes layout = ["#00d300"; "#d30000"] ∧
    Shape.x0 <$> shapes layout = [0%float; 1%float] ∧
    Shape.x1 <$> shapes layout = [1%float; 2%float].
Proof.
  destruct (snippet_total Sample.run0 [0%float; 1%float; 2%float] eq_refl)
    as [t Ht].
  destruct overlays_one_rectangle_per_interval as (_ & Hcalc & _).
  destruct (Hcalc Sample.runner_ok Sample.page0 Sample.run0 t eq_refl Ht)
    as (data & layout & Hplot & Hshapes & _).
  exists t, data, layout. rewrite Hshapes. by repeat split.
Defined.

(** C10: [calcVis] empties the plot container before the run is started:
    the run is evaluated on a page whose container holds the empty text,
    whatever it held before, and when [calcVis] is over the container holds
    either the text of the error or the new figure. *)
Theorem calcVis_clears_plot_before_run
    (runner : page → py_result Run) (pg : page) :
  let pg1 := Web.calcVis_setup pg in
  plotdiv pg1 = TextContent EmptyString ∧
  Web.calcVis runner pg =
    Web.calcVis_render (Web.calcVis_try (runner pg1) pg1).1
                       (Web.calcVis_try (runner pg1) pg1).2 ∧
  match Web.python_snippet (runner pg1) with
  | Raise err =>
      plotdiv (Web.calcVis runner pg).2 =
        InnerHTML ("<pre>" +:+ err_toString err +:+ "</pre>")
  | Return t =>
      plotdiv (Web.calcVis runner pg).2 =
        Plot (Web.formdata (Web.t_time t) (Web.t_props t) (Web.t_data t))
             {| grid := {| rows := length (Web.t_data t); columns := 1;
                           pattern := "independent" |};
                shapes := (Web.genshapes (Web.t_counts t) "#00d300" ++
                           Web.genshapes (Web.t_records t) "#d30000")%list |}
  end.
Proof.
  intros pg1. split; [reflexivity|]. split.
  - unfold Web.calcVis. fold pg1.
    by destruct (Web.calcVis_try (runner pg1) pg1).
  - destruct (Web.python_snippet (runner pg1)) as [err|t] eqn:Hsn.
    + by rewrite (calcVis_Raise _ _ _ Hsn).
    + by rewrite (calcVis_Return _ _ _ Hsn).
Qed.

(** C1, as the code has it: when the Python run raises, [calcVis] writes
    the error text in a [<pre>] element into the plot container and makes no
    call of [Plotly.newPlot], and then ends by throwing a [TypeError]: line
    77 builds the shapes from [rundata], which is still [false].  The
    earlier revision, which builds them inside the guard, ends normally. *)
Theorem calcVis_failed_run_throws
    (runner : page → py_result Run) (pg : page) (err : py_error) :
  Web.python_snippet (runner (Web.calcVis_setup pg)) = Raise err →
  (Web.calcVis runner pg).1 =
    Throw (TypeError "Cannot read properties of undefined (reading 'map')") ∧
  plotdiv (Web.calcVis runner pg).2 =
    InnerHTML ("<pre>" +:+ err_toString err +:+ "</pre>") ∧
  newPlot_calls (Web.calcVis runner pg).2 = newPlot_calls pg ∧
  (Legacy.python_snippet (runner (Web.calcVis_setup pg)) = Raise err →
   Legacy.calcVis runner pg = (Normal, (Web.calcVis runner pg).2)).
Proof.
  intros He. rewrite (calcVis_Raise _ _ _ He). simpl.
  repeat split. intros Hl. by rewrite (legacy_calcVis_Raise _ _ _ Hl).
Qed.

(** The theorem at a script that stops with a [NameError]. *)
Lemma calcVis_failed_run_throws_witness :
  Web.python_snippet (Sample.runner_fail (Web.calcVis_setup Sample.page0)) =
    Raise (RunnerError "NameError: name 'oops' is not defined") ∧
  (Web.calcVis Sample.runner_fail Sample.page0).1 =
    Throw (TypeError "Cannot read properties of undefined (reading 'map')") ∧
  plotdiv (Web.calcVis Sample.runner_fail Sample.page0).2 =
    InnerHTML "<pre>PythonError: NameError: name 'oops' is not defined</pre>" ∧
  (Legacy.calcVis Sample.runner_fail Sample.page0).1 = Normal.
Proof.
  destruct (calcVis_failed_run_throws Sample.runner_fail Sample.page0
              (RunnerError "NameError: name 'oops' is not defined") eq_refl)
    as (Hthrow & Hpre & _ & Hleg).
  split; [reflexivity|]. split; [exact Hthrow|]. split; [exact Hpre|].
  by rewrite (Hleg eq_refl).
Defined.

(** ** The upload button *)

(** C9: a click on the upload button with no file or several files chosen
    changes nothing on the page.  With exactly one file chosen the click
    itself leaves the script text area as it is and leaves one reader of
    that file waiting; when that reader has loaded, the script text area
    holds the text of the file. *)
Theorem upload_writes_script_only_for_one_file (pg : page) :
  (length (upload pg) ≠ 1 → Web.upload_onclick pg = pg) ∧
  (∀ f : file, upload pg = [f] →
     scriptpy (Web.upload_onclick pg) = scriptpy pg ∧
     readers (Web.upload_onclick pg) = (readers pg ++ [f])%list ∧
     scriptpy (Web.reader_onload (length (readers pg)) (Web.upload_onclick pg))
       = file_text f) ∧
  scriptpy (Web.upload_onclick pg) = scriptpy pg.
Proof.
  unfold Web.upload_onclick. split; [|split].
  - intros Hlen. destruct (Nat.eqb_spec (length (upload pg)) 1); [done|].
    by destruct pg.
  - intros f Hf. rewrite Hf. simpl. split; [done|]. split; [done|].
    unfold Web.reader_onload. simpl.
    by rewrite lookup_app_r, Nat.sub_diag.
  - destruct (negb _); [done|]. by destruct (upload pg !! 0).
Qed.

(** The theorem at the sample pages with one and with two files chosen. *)
Lemma upload_writes_script_only_for_one_file_witness :
  Web.upload_onclick Sample.page2 = Sample.page2 ∧
  scriptpy (Web.reader_onload 0 (Web.upload_onclick Sample.page0)) = "g.begin()".
Proof.
  split.
  - apply (upload_writes_script_only_for_one_file Sample.page2).
    simpl. lia.
  - destruct (upload_writes_script_only_for_one_file Sample.page0)
      as (_ & H & _).
    exact (proj2 (proj2 (H _ eq_refl))).
Defined.

(** ** The property model *)

Section Advance.

Import PropertyModel.
Local Open Scope Q_scope.

Lemma Qdiv_le_pos (a r dt : Q) : 0 < r → a / r <= dt → a <= r * dt.
Proof.
  intros Hr Hq.
  assert (a == r * (a / r)) as -> by (field; lra).
  apply Qmult_le_l; assumption.
Qed.

Lemma Qdiv_le_neg (a r dt : Q) : r < 0 → a / r <= dt → r * dt <= a.
Proof.
  intros Hr Hq.
  assert (a == r * (a / r)) as Ha by (field; lra).
  assert (- r * (a / r) <= - r * dt) as Hm by (apply Qmult_le_l; lra).
  lra.
Qed.

Lemma advance_hold (m : t) (tg dt : Q) :
  target m = Some tg → always_advance m = false → value m == tg →
  0 <= dt → advance dt m = inr m.
Proof.
  intros Htg Haa Hv Hdt. unfold advance.
  destruct (Qlt_le_dec dt 0) as [Hneg|_]; [lra|].
  rewrite Htg, Haa. by destruct (Qeq_dec (value m) tg).
Qed.

Lemma advance_all_hold (m : t) (tg : Q) (dts : list Q) :
  target m = Some tg → always_advance m = false → value m == tg →
  Forall (λ d, 0 <= d) dts → advance_all dts m = inr m.
Proof.
  intros Htg Haa Hv. induction 1 as [|d dts Hd _ IH]; [done|].
  simpl. by rewrite (advance_hold m tg d Htg Haa Hv Hd).
Qed.

(** C7: a property (one that keeps [rate_up >= 0 >= rate_down]) with a
    target and [always_advance = false], advanced by a duration of at least
    [(target - value) / rate], has its value equal to the target, and any
    further advances leave the value as it is.  The rate is the one of the
    direction of travel, and it is not zero, so that the quotient exists. *)
Theorem advance_reaches_target_and_holds (m : t) (tg dt : Q) :
  wf m →
  target m = Some tg →
  always_advance m = false →
  0 <= dt →
  (value m < tg → ¬ rate_up m == 0 ∧ (tg - value m) / rate_up m <= dt) →
  (tg < value m → ¬ rate_down m == 0 ∧ (tg - value m) / rate_down m <= dt) →
  ∃ m', advance dt m = inr m' ∧
        value m' == tg ∧
        ∀ dts : list Q, Forall (λ d, 0 <= d) dts →
          ∃ m'', advance_all dts m' = inr m'' ∧ value m'' = value m'.
Proof.
  intros [Hwu Hwd] Htg Haa Hdt Hup Hdn.
  assert (∀ m' : t, target m' = Some tg → always_advance m' = false →
            value m' == tg →
            ∀ dts : list Q, Forall (λ d, 0 <= d) dts →
              ∃ m'', advance_all dts m' = inr m'' ∧ value m'' = value m')
    as Hhold.
  { intros m' Ht' Ha' Hv' dts Hdts. exists m'.
    by rewrite (advance_all_hold m' tg dts). }
  unfold advance.
  destruct (Qlt_le_dec dt 0) as [Hneg|_]; [lra|].
  rewrite Htg, Haa.
  destruct (Qeq_dec (value m) tg) as [Heq|Hne].
  - exists m. split; [done|]. split; [done|]. by apply Hhold.
  - destruct (Qlt_le_dec (value m) tg) as [Hlt|Hge].
    + destruct (Hup Hlt) as [Hr Hq].
      assert (0 < rate_up m) as Hpos.
      { destruct (Qle_lt_or_eq _ _ Hwu) as [H|H]; [done|].
        exfalso. apply Hr. by symmetry. }
      apply Qdiv_le_pos in Hq; [|done].
      eexists. split; [reflexivity|].
      assert ((if Qlt_le_dec tg (value m + rate_up m * dt)
               then tg else value m + rate_up m * dt) == tg) as Hv.
      { destruct (Qlt_le_dec tg (value m + rate_up m * dt)); lra. }
      split; [exact Hv|]. by apply Hhold.
    + assert (tg < value m) as Hgt.
      { destruct (Qle_lt_or_eq _ _ Hge) as [H|H]; [done|].
        exfalso. apply Hne. by symmetry. }
      destruct (Hdn Hgt) as [Hr Hq].
      assert (rate_down m < 0) as Hneg.
      { destruct (Qle_lt_or_eq _ _ Hwd) as [H|H]; [done|].
        exfalso. by apply Hr. }
      apply Qdiv_le_neg in Hq; [|done].
      eexists. split; [reflexivity|].
      assert ((if Qlt_le_dec (value m + rate_down m * dt) tg
               then tg else value m + rate_down m * dt) == tg) as Hv.
      { destruct (Qlt_le_dec (value m + rate_down m * dt) tg); lra. }
      split; [exact Hv|]. by apply Hhold.
Qed.

(** The theorem at the ramp from 0 to 10 at rate 2, advanced by 5 and
    then by 1 and by 3. *)
Lemma advance_reaches_target_and_holds_witness :
  wf Sample.ramp ∧
  (10 - value Sample.ramp) / rate_up Sample.ramp <= 5 ∧
  ∃ m' m'', advance 5 Sample.ramp = inr m' ∧ value m' == 10 ∧
            advance_all [1; 3] m' = inr m'' ∧ value m'' = value m'.
Proof.
  assert ((10 - value Sample.ramp) / rate_up Sample.ramp <= 5) as Hb
    by (vm_compute; discriminate).
  assert (wf Sample.ramp) as Hwf by (split; vm_compute; discriminate).
  split; [exact Hwf|]. split; [exact Hb|].
  destruct (advance_reaches_target_and_holds Sample.ramp 10 5)
    as (m' & Hadv & Hv & Hmore).
  - exact Hwf.
  - reflexivity.
  - reflexivity.
  - vm_compute; discriminate.
  - intros _. split; [vm_compute; discriminate | exact Hb].
  - intros H. vm_compute in H. discriminate H.
  - destruct (Hmore [1; 3]) as (m'' & Hall & Hv').
    + repeat constructor; vm_compute; discriminate.
    + by exists m', m''.
Defined.

End Advance.

(** * Further properties of the page code *)

(** ** What [calcVis] does to the page *)

Lemma calcVis_page_cases (runner : page → py_result Run) (pg : page) :
  (∃ t, Web.python_snippet (runner (Web.calcVis_setup pg)) = Return t ∧
        (Web.calcVis runner pg).1 = Normal ∧
        ∃ data layout,
          (Web.calcVis runner pg).2 =
            Plotly_newPlot data layout (Web.calcVis_setup pg)) ∨
  (∃ err, Web.python_snippet (runner (Web.calcVis_setup pg)) = Raise err ∧
          (∃ e, (Web.calcVis runner pg).1 = Throw e) ∧
          ∃ c, (Web.calcVis runner pg).2 = set_plotdiv c (Web.calcVis_setup pg)).
Proof.
  destruct (Web.python_snippet (runner (Web.calcVis_setup pg)))
    as [err|t] eqn:Hsn.
  - right. exists err. rewrite (calcVis_Raise _ _ _ Hsn). simpl. eauto.
  - left. exists t. rewrite (calcVis_Return _ _ _ Hsn). simpl. eauto.
Qed.

Lemma calcVis_setup_FS (pg : page) :
  FS (Web.calcVis_setup pg) =
    <["config.json" := configjson pg]> (<["script.py" := scriptpy pg]> (FS pg)).
Proof. reflexivity. Qed.

(** X1: the run finds the text of the script area in [script.py] and the
    text of the configuration area in [config.json]; every other file of
    the interpreter is as it was, and [calcVis] writes nothing more to the
    file system afterwards. *)
Theorem calcVis_writes_both_text_areas
    (runner : page → py_result Run) (pg : page) :
  FS (Web.calcVis_setup pg) !! "script.py" = Some (scriptpy pg) ∧
  FS (Web.calcVis_setup pg) !! "config.json" = Some (configjson pg) ∧
  (∀ path : string, path ≠ "script.py" → path ≠ "config.json" →
     FS (Web.calcVis_setup pg) !! path = FS pg !! path) ∧
  FS (Web.calcVis runner pg).2 = FS (Web.calcVis_setup pg).
Proof.
  rewrite calcVis_setup_FS. split; [|split; [|split]].
  - rewrite lookup_insert_ne by done. apply lookup_insert_eq.
  - apply lookup_insert_eq.
  - intros path Hs Hc. by rewrite !lookup_insert_ne.
  - destruct (calcVis_page_cases runner pg)
      as [(t & _ & _ & data & layout & ->)|(err & _ & _ & c & ->)]; done.
Qed.

(** The theorem at a page whose file system holds a third file. *)
Lemma calcVis_writes_both_text_areas_witness :
  FS (Web.calcVis_setup Sample.page_waiting) !! "notes.txt" = Some "keep" ∧
  FS (Web.calcVis Sample.runner_fail Sample.page_waiting).2 !! "script.py" =
    Some "g.cset(T=10)".
Proof.
  destruct (calcVis_writes_both_text_areas Sample.runner_fail
              Sample.page_waiting) as (Hs & _ & Hother & Hfinal).
  split.
  - rewrite (Hother "notes.txt"); [reflexivity | discriminate | discriminate].
  - rewrite Hfinal. exact Hs.
Defined.


(** X3: [calcVis] ends normally exactly when the Python text returns a
    value; it then has called [Plotly.newPlot] once, and otherwise not at
    all. *)
Theorem calcVis_normal_iff_run_returns
    (runner : page → py_result Run) (pg : page) :
  ((Web.calcVis runner pg).1 = Normal ↔
     ∃ t, Web.python_snippet (runner (Web.calcVis_setup pg)) = Return t) ∧
  ((Web.calcVis runner pg).1 = Normal →
     newPlot_calls (Web.calcVis runner pg).2 = S (newPlot_calls pg)) ∧
  ((Web.calcVis runner pg).1 ≠ Normal →
     newPlot_calls (Web.calcVis runner pg).2 = newPlot_calls pg).
Proof.
  destruct (calcVis_page_cases runner pg)
    as [(t & Ht & Hn & data & layout & Hpg)
       |(err & He & [e Hthrow] & c & Hpg)];
    rewrite Hpg.
  - rewrite Hn. split; [|split]; [|done|done].
    split; [eauto | done].
  - rewrite Hthrow. split; [|split]; [|done|done].
    split; [done|]. intros [t Ht]. congruence.
Qed.

(** The theorem at a returning and at a failing run. *)
Lemma calcVis_normal_iff_run_returns_witness :
  newPlot_calls (Web.calcVis Sample.runner_ok Sample.page0).2 = 2 ∧
  newPlot_calls (Web.calcVis Sample.runner_fail Sample.page0).2 = 1.
Proof.
  split.
  - destruct (calcVis_normal_iff_run_returns Sample.runner_ok Sample.page0)
      as (_ & H & _).
    exact (H eq_refl).
  - destruct (calcVis_normal_iff_run_returns Sample.runner_fail Sample.page0)
      as (_ & _ & H).
    apply H. vm_compute. discriminate.
Defined.

(** X4: a run without a [time] entry counts as a failed run: the Python
    text raises the key error for [time], the container shows that error,
    and nothing is plotted. *)
Theorem calcVis_run_without_time
    (runner : page → py_result Run) (pg : page) (run : Run) :
  runner (Web.calcVis_setup pg) = Return run →
  properties run !! "time" = None →
  Web.python_snippet (runner (Web.calcVis_setup pg)) = Raise (KeyError "time") ∧
  plotdiv (Web.calcVis runner pg).2 =
    InnerHTML ("<pre>" +:+ err_toString (KeyError "time") +:+ "</pre>") ∧
  newPlot_calls (Web.calcVis runner pg).2 = newPlot_calls pg.
Proof.
  intros Hrun Htime.
  assert (Web.python_snippet (runner (Web.calcVis_setup pg)) =
          Raise (KeyError "time")) as Hsn.
  { rewrite Hrun. by apply snippet_no_time. }
  split; [exact Hsn|]. by rewrite (calcVis_Raise _ _ _ Hsn).
Qed.

(** The theorem at the sample run that has only the property [T]. *)
Lemma calcVis_run_without_time_witness :
  Sample.runner_no_time (Web.calcVis_setup Sample.page0) =
    Return Sample.run_no_time ∧
  properties Sample.run_no_time !! "time" = None ∧
  newPlot_calls (Web.calcVis Sample.runner_no_time Sample.page0).2 = 1.
Proof.
  split; [reflexivity|]. split; [reflexivity|].
  destruct (calcVis_run_without_time Sample.runner_no_time Sample.page0
              Sample.run_no_time eq_refl eq_refl) as (_ & _ & H).
  exact H.
Defined.

(** X5: a run whose only entry is [time] is plotted with no trace and a
    grid of no rows, while the shapes of its intervals are still drawn. *)
Theorem calcVis_run_with_time_only
    (runner : page → py_result Run) (pg : page) (run : Run) :
  runner (Web.calcVis_setup pg) = Return run →
  dom (properties run) = ({["time"]} : gset string) →
  ∃ layout,
    plotdiv (Web.calcVis runner pg).2 = Plot [] layout ∧
    rows (grid layout) = 0 ∧
    length (shapes layout) = length (counts run) + length (records run).
Proof.
  intros Hrun Hdom.
  assert (is_Some (properties run !! "time")) as [tm Htm].
  { apply elem_of_dom. rewrite Hdom. by apply elem_of_singleton. }
  destruct (snippet_total run tm Htm) as [t Ht].
  assert (Web.python_snippet (runner (Web.calcVis_setup pg)) = Return t)
    as Hsn by (by rewrite Hrun).
  rewrite (calcVis_Return _ _ _ Hsn). simpl.
  destruct (snippet_inv _ _ Ht) as (_ & Hprops & Hdata & -> & ->).
  rewrite Hdom, difference_diag_L, elements_empty in Hprops.
  rewrite Hprops in Hdata. apply Forall2_nil_inv_l in Hdata.
  rewrite Hprops, Hdata.
  eexists. split; [reflexivity|]. simpl. split; [done|].
  by rewrite length_app, !genshapes_length.
Qed.

(** The theorem at the sample run that has only [time] and one interval. *)
Lemma calcVis_run_with_time_only_witness :
  ∃ layout,
    dom (properties Sample.run_time_only) = ({["time"]} : gset string) ∧
    plotdiv (Web.calcVis Sample.runner_time_only Sample.page0).2 =
      Plot [] layout ∧
    length (shapes layout) = 1.
Proof.
  assert (dom (properties Sample.run_time_only) = ({["time"]} : gset string))
    as Hdom by (by vm_compute).
  destruct (calcVis_run_with_time_only Sample.runner_time_only Sample.page0
              Sample.run_time_only eq_refl Hdom) as (layout & Hplot & _ & Hlen).
  by exists layout.
Defined.

(** ** The two revisions side by side *)



Lemma legacy_snippet_Raise (out : py_result Run) (err : py_error) :
  Web.python_snippet out = Raise err → Legacy.python_snippet out = Raise err.
Proof.
  unfold Web.python_snippet, Legacy.python_snippet.
  unfold mbind, py_bind.
  destruct out as [e|run]; [by intros [= ->]|].
  destruct (getitem (properties run) "time") as [e|tm]; [by intros [= ->]|].
  destruct (comprehension _ _) as [e|vs]; [by intros [= ->]|].
  discriminate.
Qed.

Lemma legacy_calcVis_Return (runner : page → py_result Run) (pg : page)
    (t : Legacy.run_tuple) :
  Legacy.python_snippet (runner (Web.calcVis_setup pg)) = Return t →
  Legacy.calcVis runner pg =
    (Normal,
     Plotly_newPlot
       (Legacy.formdata (Legacy.t_time t) (Legacy.t_props t) (Legacy.t_data t))
       {| grid := {| rows := length (Legacy.t_data t); columns := 1;
                     pattern := "independent" |};
          shapes := Legacy.genshapes (Legacy.t_counts t) |}
       (Web.calcVis_setup pg)).
Proof.
  intros Ht. unfold Legacy.calcVis, Legacy.calcVis_try. by rewrite Ht.
Qed.



(** X7: the earlier [calcVis] never throws; it calls [Plotly.newPlot] once
    when the Python text returns and shows the error otherwise. *)
Theorem legacy_calcVis_ends_normally
    (runner : page → py_result Run) (pg : page) :
  (Legacy.calcVis runner pg).1 = Normal ∧
  match Legacy.python_snippet (runner (Web.calcVis_setup pg)) with
  | Return t =>
      newPlot_calls (Legacy.calcVis runner pg).2 = S (newPlot_calls pg)
  | Raise err =>
      newPlot_calls (Legacy.calcVis runner pg).2 = newPlot_calls pg ∧
      plotdiv (Legacy.calcVis runner pg).2 =
        InnerHTML ("<pre>" +:+ err_toString err +:+ "</pre>")
  end.
Proof.
  destruct (Legacy.python_snippet (runner (Web.calcVis_setup pg)))
    as [err|t] eqn:Hsn.
  - by rewrite (legacy_calcVis_Raise _ _ _ Hsn).
  - by rewrite (legacy_calcVis_Return _ _ _ Hsn).
Qed.

(** ** More on [genshapes] and [formdata] *)

(** X8: the intervals can be read back from the shapes: the pairs
    [(x0, x1)] of [genshapes runs colour], in order, are [runs]. *)
Theorem genshapes_keeps_intervals (runs : list interval) (colour : string) :
  (λ s, (Shape.x0 s, Shape.x1 s)) <$> Web.genshapes runs colour = runs.
Proof.
  unfold Web.genshapes.
  induction runs as [|[a b] runs IH]; csimpl; [done|].
  by rewrite IH.
Qed.

Lemma Number_toString_inj (n m : nat) :
  Number_toString n = Number_toString m → n = m.
Proof.
  unfold Number_toString. intros H.
  apply DecimalNat.Unsigned.to_uint_inj.
  assert (NilEmpty.uint_of_string (NilEmpty.string_of_uint (Nat.to_uint n)) =
          NilEmpty.uint_of_string (NilEmpty.string_of_uint (Nat.to_uint m)))
    as Hu by (by rewrite H).
  rewrite !NilEmpty.usu in Hu. by injection Hu.
Qed.

(** X9: no two traces of [formdata] share a subplot: the [xaxis] names are
    pairwise different, and so are the [yaxis] names. *)
Theorem formdata_axes_distinct (time : list number) (propname : list string)
    (datavec : list (list number)) :
  NoDup (Trace.xaxis <$> Web.formdata time propname datavec) ∧
  NoDup (Trace.yaxis <$> Web.formdata time propname datavec).
Proof.
  assert (∀ i (tr : Trace.t),
            Web.formdata time propname datavec !! i = Some tr →
            Trace.xaxis tr = "x" +:+ Number_toString (i + 1) ∧
            Trace.yaxis tr = "y" +:+ Number_toString (i + 1)) as Hax.
  { intros i tr Hi.
    assert (i < length propname) as Hlt.
    { rewrite <- (formdata_length time datavec). by eapply lookup_lt_Some. }
    destruct (lookup_lt_is_Some_2 _ _ Hlt) as [p Hp].
    rewrite (formdata_lookup _ _ _ _ _ Hp) in Hi. by injection Hi as <-. }
  split; apply NoDup_alt; intros i j a;
    rewrite !list_lookup_fmap;
    destruct (Web.formdata time propname datavec !! i) as [tr|] eqn:Hi;
    destruct (Web.formdata time propname datavec !! j) as [tr'|] eqn:Hj;
    simpl; try done;
    destruct (Hax _ _ Hi) as [Hx Hy]; destruct (Hax _ _ Hj) as [Hx' Hy'];
    intros [= <-] [= Heq].
  - rewrite Hx, Hx' in Heq. injection Heq as Heq.
    apply Number_toString_inj in Heq. lia.
  - rewrite Hy, Hy' in Heq. injection Heq as Heq.
    apply Number_toString_inj in Heq. lia.
Qed.

(** X10: data vectors are taken by position: the [y] of the [i]-th trace
    is defined exactly when [datavec] has an [i]-th element, and data
    vectors beyond the number of names are not looked at. *)
Theorem formdata_data_by_position (time : list number)
    (propname : list string) (datavec : list (list number)) :
  (∀ (i : nat) (tr : Trace.t),
     Web.formdata time propname datavec !! i = Some tr →
     (is_Some (Trace.y tr) ↔ i < length datavec)) ∧
  Web.formdata time propname (take (length propname) datavec) =
    Web.formdata time propname datavec.
Proof.
  split.
  - intros i tr Hi.
    assert (i < length propname) as Hlt.
    { rewrite <- (formdata_length time datavec). by eapply lookup_lt_Some. }
    destruct (lookup_lt_is_Some_2 _ _ Hlt) as [p Hp].
    rewrite (formdata_lookup _ _ _ _ _ Hp) in Hi. injection Hi as <-.
    simpl. apply lookup_lt_is_Some.
  - apply list_eq. intros i.
    destruct (propname !! i) as [p|] eqn:Hp.
    + rewrite !(formdata_lookup _ _ _ _ _ Hp).
      rewrite lookup_take_lt; [done|]. by eapply lookup_lt_Some.
    + apply lookup_ge_None in Hp.
      rewrite !(proj2 (lookup_ge_None _ _)); by rewrite ?formdata_length.
Qed.

(** The theorem at two names and three data vectors. *)
Lemma formdata_data_by_position_witness :
  let time := [0%float; 1%float] in
  let datavec := [[1%float; 2%float]; [3%float; 4%float]; [5%float; 6%float]] in
  ∃ tr, Web.formdata time ["T"; "B"] datavec !! 1 = Some tr ∧
        is_Some (Trace.y tr).
Proof.
  intros time datavec.
  destruct (formdata_data_by_position time ["T"; "B"] datavec) as [H _].
  eexists. split; [reflexivity|].
  apply (H 1); [reflexivity | simpl; lia].
Defined.

(** ** More on the upload button *)

(** X11: with one file chosen, a click followed by the load of its reader
    changes the page in two places only: the script area holds the text of
    the file and the console has one more line; the list of waiting readers
    is what it was before the click. *)
Theorem upload_then_load (pg : page) (f : file) :
  upload pg = [f] →
  Web.reader_onload (length (readers pg)) (Web.upload_onclick pg) =
    set_scriptpy (file_text f)
      (console_log ("File selected:  " +:+ file_name f) pg).
Proof.
  intros Hf. unfold Web.upload_onclick. rewrite Hf. simpl.
  unfold Web.reader_onload. simpl.
  rewrite lookup_app_r, Nat.sub_diag by done. simpl.
  unfold set_readers, set_scriptpy, console_log. simpl.
  f_equal. rewrite delete_middle. apply app_nil_r.
Qed.

(** The theorem at the page with an earlier reader still waiting. *)
Lemma upload_then_load_witness :
  upload Sample.page_waiting =
    [ {| file_name := "scan.py"; file_text := "g.begin()" |} ] ∧
  scriptpy (Web.reader_onload 1 (Web.upload_onclick Sample.page_waiting)) =
    "g.begin()" ∧
  readers (Web.reader_onload 1 (Web.upload_onclick Sample.page_waiting)) =
    readers Sample.page_waiting.
Proof.
  split; [reflexivity|].
  pose proof (upload_then_load Sample.page_waiting _ eq_refl) as H.
  simpl in H. by rewrite H.
Defined.





